(** * FXAutomaticTrading: the decision cycle of [Experts/FXAtomaticTrading.py]

    A shallow embedding of [main_loop] and of the lines of [place_order] that
    the file holds, and the properties of the control loop that the
    specification states.

    The program talks to a broker terminal, a clock and the console, and
    those calls are its only inputs.  The model is a small monad that threads
    the global [last_trade_time], records every external call in a trace and
    asks a [World] for the reply of each call: a value, or an exception.
    Replies are keyed by the loop iteration and by the source line of the
    call, so that "the clock read on line 32 returns [now]" is an equation on
    the world.  The helpers that the file calls and does not define
    ([fetch_ohlc], [calc_indicators], [generate_signal],
    [count_open_positions], [estimate_lots_by_sl], [connect_mt5],
    [disconnect_mt5]) and the [mt5] library are such calls: nothing is assumed
    about what they answer.

    Numbers are the ones Python uses.  [atr], prices and lots are IEEE-754
    binary64 values (Rocq's primitive floats) with NaN and the infinities.
    Timestamps are integers, in microseconds, the resolution of [datetime].

    Exceptions, a keyboard interrupt among them, arise at calls.  The loop
    does not end by itself, so a run is observed for a number of iterations
    ([fuel]) and is either left by an exception or still running. *)

From Stdlib Require Import ZArith List String Bool Lia Floats.
Import ListNotations.

(* Decimal literals are read as Python reads them: the nearest binary64. *)
#[local] Set Warnings "-inexact-float".

Local Open Scope Z_scope.
Local Open Scope string_scope.

(** ** Data *)

(** [datetime] values, as microseconds since the epoch. *)
Definition datetime := Z.

(** The two columns of the indicator frame that [main_loop] reads from the
    latest row ([last_bar['atr']], [last_bar['close']]). *)
Record IndBar := { bar_close : float; bar_atr : float }.

(** Frames are most-recent-last sequences of rows.  [fetch_ohlc] returns price
    bars; [calc_indicators] returns rows that carry the indicator columns. *)
Record OhlcBar := {
  o_open : float;
  o_high : float;
  o_low : float;
  o_close : float
}.
Definition OhlcFrame := list OhlcBar.
Definition IndFrame := list IndBar.

(** [mt5.symbol_info_tick(symbol)]: the live quote. *)
Record Tick := { bid : float; ask : float }.

(** The request handed to [mt5.order_send]. *)
Record OrderRequest := {
  req_symbol : string;
  req_side : string;
  req_volume : float;
  req_price : float;
  req_sl : float;
  req_tp : float
}.

(** What [mt5.order_send] returns: [result.retcode], [result.comment],
    [result.order]. *)
Record SendResult := {
  retcode : Z;
  comment : string;
  order : Z
}.

(** MetaTrader 5's "request completed" return code. *)
Definition TRADE_RETCODE_DONE : Z := 10009.

(** The entries of the [CONFIG] dictionary that the file reads. *)
Record Config := {
  symbol : string;
  timeframe : Z;
  history_bars : Z;
  min_seconds_between_trades : Z;
  max_positions : Z;
  atr_multiplier_sl : float;
  atr_multiplier_tp : float;
  dry_run : bool
}.

(** Python exceptions that can leave a call. *)
Inductive Exn :=
| KeyboardInterrupt
| IndexError
| AttributeError
| OtherError (what : string).

(** Console output, one constructor per [print] of the file. *)
Inductive Msg :=
| MsgOrderFailed (code : Z) (text : string)            (* line 4 *)
| MsgOrderPlaced (ticket : Z) (lots price : float)     (* line 6 *)
| MsgConnected                                         (* line 18 *)
| MsgSignal (stamp : datetime) (signal : option string) (* line 28 *)
| MsgWaiting                                           (* line 34 *)
| MsgMaxPositions                                      (* line 42 *)
| MsgInvalidATR                                        (* line 54 *)
| MsgLotsSkip                                          (* line 72 *)
| MsgInterrupted                                       (* line 85 *)
| MsgDisconnected                                      (* line 88 *)
| MsgStarting (dry : bool).                            (* line 94 *)

(** ** External calls

    Every function that [main_loop] and [place_order] call but that the file
    does not define.  None of their bodies is assumed: the [World] decides each
    reply. *)
Inductive Call :=
| connect_mt5
| disconnect_mt5
| print (m : Msg)
| sleep (seconds : Z)
| datetime_now
| fetch_ohlc (sym : string) (tf bars : Z)
| calc_indicators (df : OhlcFrame)
| generate_signal (df : IndFrame)
| count_open_positions (sym : string)
| symbol_info_tick (sym : string)
| estimate_lots_by_sl (sym : string) (entry sl : float)
| order_send (request : OrderRequest).

(** The type of what each call returns.  [generate_signal] gives a string or
    [None]; [symbol_info_tick] and [order_send] give [None] when the terminal
    has no answer. *)
Definition returns (c : Call) : Type :=
  match c with
  | connect_mt5 | disconnect_mt5 | print _ | sleep _ => unit
  | datetime_now => datetime
  | fetch_ohlc _ _ _ => OhlcFrame
  | calc_indicators _ => IndFrame
  | generate_signal _ => option string
  | count_open_positions _ => Z
  | symbol_info_tick _ => option Tick
  | estimate_lots_by_sl _ _ _ => float
  | order_send _ => option SendResult
  end.

(** A call returns a value or raises. *)
Inductive Reply (A : Type) :=
| Ok (a : A)
| Raise (e : Exn).
Arguments Ok {A} a.
Arguments Raise {A} e.

(** The environment: the reply to the call [c] made on source line [line]
    during loop iteration [iter].  The calls that [main_loop] makes outside
    the loop (lines 17, 18 and 85-88) are keyed by the iteration at which the
    loop starts. *)
Definition World := forall (iter line : nat) (c : Call), Reply (returns c).

(** The result of [place_order]: the broker's reply, or the simulated result
    of a dry run. *)
Inductive PlaceResult :=
| Skipped
| Sent (result : SendResult).

(** What a run leaves behind: the external calls with their source line, and
    the entry into and the return from [place_order]. *)
Inductive Event :=
| EvCall (line : nat) (c : Call)
| EvPlaceOrder (sym side : string) (lots price sl tp : float)
| EvPlaceOrderReturn (result : PlaceResult).

(** How a piece of code ends: with a value, with an exception, with the
    [continue] statement, or still running when the observation stops. *)
Inductive Outcome (A : Type) :=
| Val (a : A)
| Exc (e : Exn)
| Continue
| OutOfFuel.
Arguments Val {A} a.
Arguments Exc {A} e.
Arguments Continue {A}.
Arguments OutOfFuel {A}.

Record Result (A : Type) := mkResult {
  trace : list Event;
  last_trade_time : option datetime;
  outcome : Outcome A
}.
Arguments mkResult {A} _ _ _.
Arguments trace {A} _.
Arguments last_trade_time {A} _.
Arguments outcome {A} _.

(** ** The monad *)

Definition M (A : Type) := World -> nat -> option datetime -> Result A.

Definition ret {A} (a : A) : M A := fun _ _ s => mkResult [] s (Val a).

Definition raise {A} (e : Exn) : M A := fun _ _ s => mkResult [] s (Exc e).

Definition continue_ {A} : M A := fun _ _ s => mkResult [] s Continue.

Definition bind {A B} (m : M A) (f : A -> M B) : M B :=
  fun w i s =>
    match m w i s with
    | mkResult tr s' (Val a) =>
        let '(mkResult tr' s'' o) := f a w i s' in
        mkResult (tr ++ tr') s'' o
    | mkResult tr s' (Exc e) => mkResult tr s' (Exc e)
    | mkResult tr s' Continue => mkResult tr s' Continue
    | mkResult tr s' OutOfFuel => mkResult tr s' OutOfFuel
    end.

Declare Scope py_scope.
Delimit Scope py_scope with py.
Notation "x <- m ;; k" := (bind m (fun x => k))
  (at level 100, m at next level, right associativity) : py_scope.
Notation "m ;; k" := (bind m (fun _ => k))
  (at level 100, right associativity) : py_scope.
Local Open Scope py_scope.

(** An external call made on source line [line]. *)
Definition call (line : nat) (c : Call) : M (returns c) :=
  fun w i s =>
    match w i line c with
    | Ok x => mkResult [EvCall line c] s (Val x)
    | Raise e => mkResult [EvCall line c] s (Exc e)
    end.

(** [global last_trade_time]: read and assignment. *)
Definition get_last_trade_time : M (option datetime) :=
  fun _ _ s => mkResult [] s (Val s).

Definition set_last_trade_time (t : datetime) : M unit :=
  fun _ _ _ => mkResult [] (Some t) (Val tt).

(** [if c: body] with nothing after it in the branch. *)
Definition when (c : bool) (body : M unit) : M unit :=
  if c then body else ret tt.

(** [while True: body], observed for [fuel] iterations.  [continue] and the
    end of the body both start the next iteration. *)
Fixpoint while_true (fuel : nat) (body : M unit) : M unit :=
  fun w i s =>
    match fuel with
    | O => mkResult [] s OutOfFuel
    | S fuel' =>
        match body w i s with
        | mkResult tr s' (Val _) | mkResult tr s' Continue =>
            let '(mkResult tr' s'' o) := while_true fuel' body w (S i) s' in
            mkResult (tr ++ tr') s'' o
        | mkResult tr s' (Exc e) => mkResult tr s' (Exc e)
        | mkResult tr s' OutOfFuel => mkResult tr s' OutOfFuel
        end
    end.

(** [try: body / except KeyboardInterrupt: handler]. *)
Definition try_except_KeyboardInterrupt (body handler : M unit) : M unit :=
  fun w i s =>
    match body w i s with
    | mkResult tr s' (Exc KeyboardInterrupt) =>
        let '(mkResult tr' s'' o) := handler w i s' in
        mkResult (tr ++ tr') s'' o
    | r => r
    end.

(** [try: body / finally: final].  The [finally] block runs however [body]
    ends; an exception of its own replaces the pending outcome.  A body that
    is still running has not reached it. *)
Definition try_finally (body final : M unit) : M unit :=
  fun w i s =>
    match body w i s with
    | mkResult tr s' OutOfFuel => mkResult tr s' OutOfFuel
    | mkResult tr s' o =>
        match final w i s' with
        | mkResult tr' s'' (Val _) => mkResult (tr ++ tr') s'' o
        | mkResult tr' s'' o' => mkResult (tr ++ tr') s'' o'
        end
    end.

(** ** [place_order] *)

(** Lines 2-7, the part of [place_order] that the file holds: the request is
    sent once, the return code is compared with [TRADE_RETCODE_DONE], one of
    two messages is printed and the broker's result is returned.
    [mt5.order_send] returns [None] when the terminal could not take the
    request; [result.retcode] then raises [AttributeError]. *)
Definition place_order_send (request : OrderRequest) (lots price : float)
  : M SendResult :=
  result <- call 2 (order_send request);;
  match result with
  | None => raise AttributeError
  | Some result =>
      (if negb (retcode result =? TRADE_RETCODE_DONE)%Z
       then call 4 (print (MsgOrderFailed (retcode result) (comment result)))
       else call 6 (print (MsgOrderPlaced (order result) lots price)));;
      ret result
  end.

(** Modelled from the spec: the head of [place_order] (its signature, the
    dry-run branch and the construction of [request]) is not in the file.  The
    specification gives the request its six fields and says of [dryRun] that
    the executor "must not invoke the real submission path; it returns a
    simulated OrderResult marked as skipped". *)
Definition place_order (cfg : Config) (sym side : string)
    (lots price sl tp : float) : M PlaceResult :=
  fun w i s =>
    let '(mkResult tr s' o) :=
      (if dry_run cfg
       then ret Skipped
       else
         let request :=
           {| req_symbol := sym; req_side := side; req_volume := lots;
              req_price := price; req_sl := sl; req_tp := tp |} in
         result <- place_order_send request lots price;;
         ret (Sent result)) w i s in
    mkResult
      (EvPlaceOrder sym side lots price sl tp :: tr ++
       match o with
       | Val res => [EvPlaceOrderReturn res]
       | _ => []
       end)
      s' o.

(** ** [main_loop] *)

(** Line 33: [last_trade_time and (now - last_trade_time).total_seconds() <
    CONFIG['min_seconds_between_trades']].  [None] is falsy and every
    [datetime] is truthy.  The difference of two [datetime]s is an exact
    number of microseconds and [total_seconds()] its quotient by 10^6 rounded
    to binary64.  Against a whole number of seconds of at most 2^33 in
    absolute value (some 272 years) the rounded quotient compares as the
    microseconds do: two neighbouring doubles below 2^33 are less than a
    microsecond apart, so a quotient a microsecond short of the limit is not
    rounded up to it.  The comparison is made on the microseconds; the
    theorems that depend on its outcome assume that bound on
    [min_seconds_between_trades].  Above 2^34 seconds the rounded quotient
    can reach the limit a microsecond early, and this definition is not what
    line 33 computes there. *)
Definition throttled (last : option datetime) (now : datetime)
    (min_seconds : Z) : bool :=
  match last with
  | None => false
  | Some t => (now - t <? min_seconds * 1000000)%Z
  end.

(** Line 53: [np.isnan(atr) or atr <= 0]. *)
Definition invalid_atr (atr : float) : bool :=
  (PrimFloat.is_nan atr || (atr <=? 0)%float)%bool.

(** The most recent row of a frame. *)
Definition latest (df : IndFrame) : option IndBar :=
  match rev df with
  | [] => None
  | bar :: _ => Some bar
  end.

(** Line 48: [df.iloc[-1]], an [IndexError] on an empty frame. *)
Definition iloc_last (df : IndFrame) : M IndBar :=
  match latest df with
  | None => raise IndexError
  | Some bar => ret bar
  end.

(** [obj.attr] on a value that may be [None]. *)
Definition attr {A B} (f : A -> B) (obj : option A) : M B :=
  match obj with
  | None => raise AttributeError
  | Some a => ret (f a)
  end.

(** Lines 59-66: entry price from the live quote, stop and target at
    ATR multiples around it. *)
Definition price_levels (cfg : Config) (signal : string) (atr : float)
  : M (float * float * float) :=
  if (signal =? "buy")%string then
    tick <- call 60 (symbol_info_tick (symbol cfg));;
    entry_price <- attr ask tick;;
    let sl_price := (entry_price - atr_multiplier_sl cfg * atr)%float in
    let tp_price := (entry_price + atr_multiplier_tp cfg * atr)%float in
    ret (entry_price, sl_price, tp_price)
  else
    tick <- call 64 (symbol_info_tick (symbol cfg));;
    entry_price <- attr bid tick;;
    let sl_price := (entry_price + atr_multiplier_sl cfg * atr)%float in
    let tp_price := (entry_price - atr_multiplier_tp cfg * atr)%float in
    ret (entry_price, sl_price, tp_price).

(** Lines 48-79, the body of [if signal is not None:]. *)
Definition trade (cfg : Config) (df : IndFrame) (signal : string) : M unit :=
  last_bar <- iloc_last df;;
  let atr := bar_atr last_bar in
  let close := bar_close last_bar in
  when (invalid_atr atr)
    (call 54 (print MsgInvalidATR);; call 55 (sleep 5);; continue_);;
  levels <- price_levels cfg signal atr;;
  let '(entry_price, sl_price, tp_price) := levels in
  lots <- call 70 (estimate_lots_by_sl (symbol cfg) entry_price sl_price);;
  when (lots <=? 0)%float
    (call 72 (print MsgLotsSkip);; call 73 (sleep 5);; continue_);;
  res <- place_order cfg (symbol cfg) signal lots entry_price sl_price tp_price;;
  t <- call 79 datetime_now;;
  set_last_trade_time t.

(** Lines 23-83, one iteration of [while True:].  The file has lost its
    indentation; the blocks are the only ones under which every name is bound
    where it is read: lines 48-79 belong to [if signal is not None:] and the
    ten-second sleep closes the iteration. *)
Definition cycle (cfg : Config) : M unit :=
  df <- call 23 (fetch_ohlc (symbol cfg) (timeframe cfg) (history_bars cfg));;
  df <- call 24 (calc_indicators df);;
  signal <- call 27 (generate_signal df);;
  stamp <- call 28 datetime_now;;
  call 28 (print (MsgSignal stamp signal));;
  now <- call 32 datetime_now;;
  last <- get_last_trade_time;;
  when (throttled last now (min_seconds_between_trades cfg))
    (call 34 (print MsgWaiting);; call 35 (sleep 5);; continue_);;
  open_pos <- call 40 (count_open_positions (symbol cfg));;
  when (open_pos >=? max_positions cfg)%Z
    (call 42 (print MsgMaxPositions);; call 43 (sleep 5);; continue_);;
  match signal with
  | Some signal => trade cfg df signal
  | None => ret tt
  end;;
  call 83 (sleep 10).

(** Lines 15-88. *)
Definition main_loop (cfg : Config) (fuel : nat) : M unit :=
  call 17 connect_mt5;;
  call 18 (print MsgConnected);;
  try_finally
    (try_except_KeyboardInterrupt
       (while_true fuel (cycle cfg))
       (call 85 (print MsgInterrupted)))
    (call 87 disconnect_mt5;;
     call 88 (print MsgDisconnected)).

(** Lines 93-95. *)
Definition main (cfg : Config) (fuel : nat) : M unit :=
  call 94 (print (MsgStarting (dry_run cfg)));;
  main_loop cfg fuel.

(** ** Reading a trace *)

(** The live quote is fetched ([mt5.symbol_info_tick], lines 60 and 64). *)
Definition is_quote (e : Event) : bool :=
  match e with
  | EvCall _ (symbol_info_tick _) => true
  | _ => false
  end.

(** The position is sized ([estimate_lots_by_sl], line 70). *)
Definition is_sizing (e : Event) : bool :=
  match e with
  | EvCall _ (estimate_lots_by_sl _ _ _) => true
  | _ => false
  end.

(** The broker's real submission path ([mt5.order_send], line 2). *)
Definition is_order_send (e : Event) : bool :=
  match e with
  | EvCall _ (order_send _) => true
  | _ => false
  end.

(** An order is being submitted: [place_order] is entered (the request is
    built inside it) or the broker is asked to execute one. *)
Definition is_submit (e : Event) : bool :=
  match e with
  | EvPlaceOrder _ _ _ _ _ _ => true
  | EvCall _ (order_send _) => true
  | _ => false
  end.

Definition never (p : Event -> bool) (tr : list Event) : Prop :=
  existsb p tr = false.

(** [r] with the events [tr] in front of its trace. *)
Definition after {A} (tr : list Event) (r : Result A) : Result A :=
  mkResult (tr ++ trace r) (last_trade_time r) (outcome r).

(** ** Concrete runs

    A scripted environment: the indicator frame has one row with the given
    ATR, the signal, the open-position count, the quote, the lot size and the
    broker's return code are fixed, the clock advances fifteen seconds per
    iteration, and the sleep of iteration [sc_interrupt] is interrupted from
    the keyboard. *)
Record Scenario := {
  sc_atr : float;
  sc_signal : option string;
  sc_positions : Z;
  sc_tick : option Tick;
  sc_lots : float;
  sc_retcode : Z;
  sc_interrupt : nat
}.

Definition scripted (sc : Scenario) : World :=
  fun iter line c =>
    match c return Reply (returns c) with
    | connect_mt5 | disconnect_mt5 | print _ => Ok tt
    | sleep _ =>
        if Nat.eqb iter (sc_interrupt sc) then Raise KeyboardInterrupt else Ok tt
    | datetime_now => Ok (Z.of_nat iter * 15000000 + Z.of_nat line)%Z
    | fetch_ohlc _ _ _ =>
        Ok [ {| o_open := 1.1998; o_high := 1.2003; o_low := 1.1995;
                o_close := 1.2 |} ]
    | calc_indicators _ => Ok [ {| bar_close := 1.2; bar_atr := sc_atr sc |} ]
    | generate_signal _ => Ok (sc_signal sc)
    | count_open_positions _ => Ok (sc_positions sc)
    | symbol_info_tick _ => Ok (sc_tick sc)
    | estimate_lots_by_sl _ _ _ => Ok (sc_lots sc)
    | order_send _ =>
        Ok (Some {| retcode := sc_retcode sc; comment := "reply"; order := 7 |})
    end.

Definition eurusd : Config :=
  {| symbol := "EURUSD"; timeframe := 5; history_bars := 200;
     min_seconds_between_trades := 60; max_positions := 1;
     atr_multiplier_sl := 1.5; atr_multiplier_tp := 3.0; dry_run := false |}.

Definition eurusd_dry : Config :=
  {| symbol := "EURUSD"; timeframe := 5; history_bars := 200;
     min_seconds_between_trades := 60; max_positions := 1;
     atr_multiplier_sl := 1.5; atr_multiplier_tp := 3.0; dry_run := true |}.

Definition quote : Tick := {| bid := 1.1999; ask := 1.2 |}.

(** A quiet buy: ATR of ten points, one tenth of a lot, the broker accepts,
    the third sleep is interrupted. *)
Definition buy_day : Scenario :=
  {| sc_atr := 0.001; sc_signal := Some "buy"; sc_positions := 0;
     sc_tick := Some quote; sc_lots := 0.1; sc_retcode := 10009;
     sc_interrupt := 2 |}.

(** The condition of the specification's sentence on volatility, in its own
    words: the measure is "NaN, non-finite, or <= 0". *)
Definition spec_invalid_atr (atr : float) : bool :=
  (PrimFloat.is_nan atr || negb (PrimFloat.is_finite atr)
   || (atr <=? 0)%float)%bool.

(** A buy signal on a frame whose ATR is positive infinity. *)
Definition unbounded_day : Scenario :=
  {| sc_atr := infinity; sc_signal := Some "buy"; sc_positions := 0;
     sc_tick := Some quote; sc_lots := 0.1; sc_retcode := 10009;
     sc_interrupt := 2 |}.

(** A buy signal on a frame whose ATR is NaN (the indicator is still warming
    up). *)
Definition warmup_day : Scenario :=
  {| sc_atr := nan; sc_signal := Some "buy"; sc_positions := 0;
     sc_tick := Some quote; sc_lots := 0.1; sc_retcode := 10009;
     sc_interrupt := 2 |}.

(** One position is already open. *)
Definition exposed_day : Scenario :=
  {| sc_atr := 0.001; sc_signal := Some "buy"; sc_positions := 1;
     sc_tick := Some quote; sc_lots := 0.1; sc_retcode := 10009;
     sc_interrupt := 2 |}.

(** The sizing helper answers with no lots. *)
Definition unsized_day : Scenario :=
  {| sc_atr := 0.001; sc_signal := Some "sell"; sc_positions := 0;
     sc_tick := Some quote; sc_lots := 0; sc_retcode := 10009;
     sc_interrupt := 2 |}.

(** The broker rejects the request ("invalid stops"). *)
Definition rejected_day : Scenario :=
  {| sc_atr := 0.001; sc_signal := Some "sell"; sc_positions := 0;
     sc_tick := Some quote; sc_lots := 0.1; sc_retcode := 10016;
     sc_interrupt := 2 |}.

(** A flat market: the rolling ATR has decayed to a residue of 1e-17, far
    below the spacing of binary64 numbers around the quote. *)
Definition flat_day : Scenario :=
  {| sc_atr := 1e-17; sc_signal := Some "buy"; sc_positions := 0;
     sc_tick := Some quote; sc_lots := 0.1; sc_retcode := 10009;
     sc_interrupt := 2 |}.

(** No signal: [generate_signal] returns [None]. *)
Definition idle_day : Scenario :=
  {| sc_atr := 0.001; sc_signal := None; sc_positions := 0;
     sc_tick := Some quote; sc_lots := 0.1; sc_retcode := 10009;
     sc_interrupt := 2 |}.

(** The data feed fails in the second iteration: [fetch_ohlc] raises. *)
Definition feed_loss : World :=
  fun iter line c =>
    match c return Reply (returns c) with
    | fetch_ohlc _ _ _ =>
        if Nat.eqb iter 1 then Raise (OtherError "no connection")
        else scripted idle_day iter line (fetch_ohlc "EURUSD" 5 200)
    | c' => scripted idle_day iter line c'
    end.

(** An iteration that qualifies for a trade apart from the throttle: the data
    calls and the log line succeed, a signal is given, the open positions are
    under the limit, the ATR passes the guard, the quote is there and the
    sizing helper answers a lot size above zero. *)
Definition qualifies (cfg : Config) (w : World) (i : nat) : Prop :=
  exists raw df signal bar stamp now open_pos tick lots,
    w i 23%nat (fetch_ohlc (symbol cfg) (timeframe cfg) (history_bars cfg))
      = Ok raw /\
    w i 24%nat (calc_indicators raw) = Ok df /\
    w i 27%nat (generate_signal df) = Ok (Some signal) /\
    w i 28%nat datetime_now = Ok stamp /\
    w i 28%nat (print (MsgSignal stamp (Some signal))) = Ok tt /\
    w i 32%nat datetime_now = Ok now /\
    w i 40%nat (count_open_positions (symbol cfg)) = Ok open_pos /\
    (open_pos < max_positions cfg)%Z /\
    latest df = Some bar /\
    invalid_atr (bar_atr bar) = false /\
    (forall line, w i line (symbol_info_tick (symbol cfg)) = Ok (Some tick)) /\
    (forall entry sl,
        w i 70%nat (estimate_lots_by_sl (symbol cfg) entry sl) = Ok lots) /\
    (lots <=? 0)%float = false.

(** A program that changes [last_trade_time] only in runs in which
    [place_order] has returned. *)
Definition keeps_timestamp {A} (m : M A) : Prop :=
  forall (w : World) (i : nat) (s : option datetime),
    (forall res, ~ In (EvPlaceOrderReturn res) (trace (m w i s))) ->
    last_trade_time (m w i s) = s.

(** ** Further readings of a trace *)

(** [place_order] is entered. *)
Definition is_entry (e : Event) : bool :=
  match e with
  | EvPlaceOrder _ _ _ _ _ _ => true
  | _ => false
  end.

(** The open positions are counted ([count_open_positions], line 40). *)
Definition is_count (e : Event) : bool :=
  match e with
  | EvCall _ (count_open_positions _) => true
  | _ => false
  end.

(** The session is closed ([disconnect_mt5], line 87). *)
Definition is_disconnect (e : Event) : bool :=
  match e with
  | EvCall _ disconnect_mt5 => true
  | _ => false
  end.

(** How many events of a kind a trace holds. *)
Definition occurrences (p : Event -> bool) (tr : list Event) : nat :=
  List.length (filter p tr).

(** The sleeps of a trace, in order, in seconds. *)
Fixpoint sleeps (tr : list Event) : list Z :=
  match tr with
  | [] => []
  | EvCall _ (sleep seconds) :: tr' => seconds :: sleeps tr'
  | _ :: tr' => sleeps tr'
  end.

(** ** Further concrete runs *)

(** The sizing helper answers NaN. *)
Definition nan_lots_day : Scenario :=
  {| sc_atr := 0.001; sc_signal := Some "buy"; sc_positions := 0;
     sc_tick := Some quote; sc_lots := nan; sc_retcode := 10009;
     sc_interrupt := 2 |}.

(** A signal that is neither "buy" nor "sell". *)
Definition hold_day : Scenario :=
  {| sc_atr := 0.001; sc_signal := Some "hold"; sc_positions := 0;
     sc_tick := Some quote; sc_lots := 0.1; sc_retcode := 10009;
     sc_interrupt := 2 |}.

(** The terminal has no quote for the symbol. *)
Definition quoteless_day : Scenario :=
  {| sc_atr := 0.001; sc_signal := Some "buy"; sc_positions := 0;
     sc_tick := None; sc_lots := 0.1; sc_retcode := 10009;
     sc_interrupt := 2 |}.

(** The indicator frame comes back empty. *)
Definition bare_feed : World :=
  fun iter line c =>
    match c return Reply (returns c) with
    | calc_indicators _ => Ok []
    | c' => scripted buy_day iter line c'
    end.

(** The terminal does not take the request: [mt5.order_send] returns
    [None]. *)
Definition deaf_terminal : World :=
  fun iter line c =>
    match c return Reply (returns c) with
    | order_send _ => Ok None
    | c' => scripted buy_day iter line c'
    end.

(** The terminal cannot be reached: [connect_mt5] raises. *)
Definition no_terminal : World :=
  fun iter line c =>
    match c return Reply (returns c) with
    | connect_mt5 => Raise (OtherError "initialize failed")
    | c' => scripted buy_day iter line c'
    end.

(** The session cannot be closed: [disconnect_mt5] raises. *)
Definition stuck_session : World :=
  fun iter line c =>
    match c return Reply (returns c) with
    | disconnect_mt5 => Raise (OtherError "shutdown failed")
    | c' => scripted buy_day iter line c'
    end.

(** * Properties *)

(** ** Running a program statement by statement

    Each equation exposes the first statement of a program; rewriting with
    them walks through [cycle] in source order, one external call at a
    time. *)

Section Run.
Context (w : World) (i : nat) (s : option datetime).

Lemma run_call {B} l c (g : returns c -> M B) :
  bind (call l c) g w i s =
  match w i l c with
  | Ok x => after [EvCall l c] (g x w i s)
  | Raise e => mkResult [EvCall l c] s (Exc e)
  end.
Proof.
  unfold bind, call, after.
  destruct (w i l c) as [x|e]; [destruct (g x w i s)|]; reflexivity.
Qed.

Lemma run_ret {A B} (a : A) (f : A -> M B) : bind (ret a) f w i s = f a w i s.
Proof. unfold bind, ret. destruct (f a w i s); reflexivity. Qed.

Lemma run_raise {A B} e (f : A -> M B) :
  bind (raise e) f w i s = mkResult [] s (Exc e).
Proof. reflexivity. Qed.

Lemma run_continue {A B} (f : A -> M B) :
  bind continue_ f w i s = mkResult [] s Continue.
Proof. reflexivity. Qed.

Lemma run_assoc {A B C} (m : M C) (g : C -> M A) (f : A -> M B) :
  bind (bind m g) f w i s = bind m (fun x => bind (g x) f) w i s.
Proof.
  unfold bind. destruct (m w i s) as [tr s1 [c|e| |]]; try reflexivity.
  destruct (g c w i s1) as [tr' s2 [a|e| |]]; try reflexivity.
  destruct (f a w i s2) as [tr'' s3 o]. now rewrite app_assoc.
Qed.

Lemma run_get {B} (g : option datetime -> M B) :
  bind get_last_trade_time g w i s = g s w i s.
Proof. unfold bind, get_last_trade_time. destruct (g s w i s); reflexivity. Qed.

Lemma run_set {B} t (g : unit -> M B) :
  bind (set_last_trade_time t) g w i s = g tt w i (Some t).
Proof.
  unfold bind, set_last_trade_time. destruct (g tt w i (Some t)); reflexivity.
Qed.

Lemma run_when {B} c body (g : unit -> M B) :
  bind (when c body) g w i s = if c then bind body g w i s else g tt w i s.
Proof. destruct c; [reflexivity | apply run_ret]. Qed.

Lemma run_last_call l c :
  call l c w i s =
  match w i l c with
  | Ok x => mkResult [EvCall l c] s (Val x)
  | Raise e => mkResult [EvCall l c] s (Exc e)
  end.
Proof. reflexivity. Qed.

(** [place_order] brackets what it does between its entry and its return. *)
Lemma run_place_order {B} cfg sym side lots price sl tp
    (g : PlaceResult -> M B) :
  bind (place_order cfg sym side lots price sl tp) g w i s =
  after [EvPlaceOrder sym side lots price sl tp]
    (bind
       (if dry_run cfg
        then ret Skipped
        else
          result <-
            place_order_send
              {| req_symbol := sym; req_side := side; req_volume := lots;
                 req_price := price; req_sl := sl; req_tp := tp |} lots price;;
          ret (Sent result))
       (fun res w' i' s' => after [EvPlaceOrderReturn res] (g res w' i' s'))
       w i s).
Proof.
  unfold place_order.
  set (inner := if dry_run cfg then _ else _).
  unfold bind at 1 2, after.
  destruct (inner w i s) as [tr s1 [res|e| |]];
    try (cbn; now rewrite app_nil_r).
  destruct (g res w i s1) as [tr' s2 o]. cbn.
  now rewrite <- app_assoc.
Qed.
End Run.

(** One step of the walk: a reply or a test that a hypothesis fixes is
    rewritten, any other is split into its cases. *)
Ltac use_reply w i l c :=
  first
    [ match goal with H : w i l c = _ |- _ => rewrite H end
    | match goal with
      | H : context [w i] |- _ =>
          rewrite H;
          lazymatch goal with
          | |- context [w i l c] => fail
          | _ => idtac
          end
      end
    | let E := fresh "E" in destruct (w i l c) eqn:E ].

Ltac use_test b :=
  first
    [ match goal with H : b = _ |- _ => rewrite H end
    | let T := fresh "T" in destruct b eqn:T ].

Ltac walk w :=
  repeat
    (cbv beta iota;
     lazymatch goal with
     | |- context [bind (bind ?m ?g) ?f w ?i ?s] =>
         rewrite (run_assoc w i s m g f)
     | |- context [@bind ?A ?B (call ?l ?c) ?g w ?i ?s] =>
         change (@bind A B (call l c) g w i s)
           with (@bind (returns c) B (call l c) g w i s);
         rewrite (run_call w i s l c g); use_reply w i l c
     | |- context [bind (ret ?a) ?f w ?i ?s] => rewrite (run_ret w i s a f)
     | |- context [bind (raise ?e) ?f w ?i ?s] => rewrite (run_raise w i s e f)
     | |- context [bind continue_ ?f w ?i ?s] => rewrite (run_continue w i s f)
     | |- context [bind get_last_trade_time ?g w ?i ?s] =>
         rewrite (run_get w i s g)
     | |- context [bind (set_last_trade_time ?t) ?g w ?i ?s] =>
         rewrite (run_set w i s t g)
     | |- context [bind (when ?c ?body) ?g w ?i ?s] =>
         rewrite (run_when w i s c body g); use_test c
     | |- context [bind (place_order ?cfg ?y ?d ?l ?p ?sl ?tp) ?g w ?i ?s] =>
         rewrite (run_place_order w i s cfg y d l p sl tp g)
     | |- context [bind (if negb ?c then _ else _) _ w _ _] =>
         use_test c; cbn [negb]
     | |- context [bind (if ?c then _ else _) _ w _ _] => use_test c
     | |- context [bind (match ?o with Some _ => _ | None => _ end) _ w _ _] =>
         use_test o
     | |- context [bind (iloc_last ?df) _ w _ _] => unfold iloc_last
     | |- context [bind (attr _ _) _ w _ _] => unfold attr
     | |- context [bind (trade _ _ _) _ w _ _] => unfold trade
     | |- context [bind (price_levels _ _ _) _ w _ _] => unfold price_levels
     | |- context [bind (place_order_send _ _ _) _ w _ _] =>
         unfold place_order_send
     | |- context [call ?l ?c w ?i ?s] =>
         rewrite (run_last_call w i s l c); use_reply w i l c
     end).

(** The trace of a walked path is a list of known events. *)
Ltac settle :=
  cbv [after trace last_trade_time outcome app never existsb
       ret raise continue_ is_quote is_sizing is_submit is_order_send orb]
    in *.

(** Membership in the trace of a walked path: the events are known, so each
    candidate is the event looked for or is told apart from it. *)
Ltac find_event H :=
  cbv [In] in H;
  repeat
    (destruct H as [H | H];
     [ first [ discriminate H | inversion H; subst | idtac ] | ]);
  try contradiction.

(** The event looked for is in the trace of a walked path. *)
Ltac show_event :=
  cbv [In];
  repeat first [ left; reflexivity | right ].

(** ** Traces and the loop *)

Lemma never_app (p : Event -> bool) (a b : list Event) :
  never p (a ++ b) <-> never p a /\ never p b.
Proof. unfold never. rewrite existsb_app. apply orb_false_iff. Qed.

Lemma never_bind {A B} (p : Event -> bool) (m : M A) (f : A -> M B)
    (w : World) (i : nat) (s : option datetime) :
  never p (trace (m w i s)) ->
  (forall a s', never p (trace (f a w i s'))) ->
  never p (trace (bind m f w i s)).
Proof.
  intros Hm Hf. unfold bind.
  destruct (m w i s) as [tr s' [a|e| |]]; cbn in *; try exact Hm.
  specialize (Hf a s'). destruct (f a w i s') as [tr' s'' o]. cbn in *.
  apply never_app. auto.
Qed.

Lemma never_call (p : Event -> bool) (l : nat) (c : Call) (w : World)
    (i : nat) (s : option datetime) :
  p (EvCall l c) = false -> never p (trace (call l c w i s)).
Proof.
  intros Hp. unfold call, never. destruct (w i l c); cbn; now rewrite Hp.
Qed.

Lemma never_while_true (p : Event -> bool) (body : M unit) :
  (forall w i s, never p (trace (body w i s))) ->
  forall fuel w i s, never p (trace (while_true fuel body w i s)).
Proof.
  intros Hbody fuel. induction fuel as [|fuel IH]; intros w i s.
  - reflexivity.
  - cbn [while_true]. specialize (Hbody w i s).
    destruct (body w i s) as [tr s' [[]|e| |]]; cbn in *; try exact Hbody.
    all: specialize (IH w (S i) s');
      destruct (while_true fuel body w (S i) s') as [tr' s'' o]; cbn in *;
      apply never_app; auto.
Qed.

Lemma never_try_except (p : Event -> bool) (body handler : M unit)
    (w : World) (i : nat) (s : option datetime) :
  never p (trace (body w i s)) ->
  (forall s', never p (trace (handler w i s'))) ->
  never p (trace (try_except_KeyboardInterrupt body handler w i s)).
Proof.
  intros Hbody Hhandler. unfold try_except_KeyboardInterrupt.
  destruct (body w i s) as [tr s' [a|[]| |]]; cbn in *; try exact Hbody.
  specialize (Hhandler s'). destruct (handler w i s') as [tr' s'' o].
  cbn in *. apply never_app. auto.
Qed.

Lemma never_try_finally (p : Event -> bool) (body final : M unit)
    (w : World) (i : nat) (s : option datetime) :
  never p (trace (body w i s)) ->
  (forall s', never p (trace (final w i s'))) ->
  never p (trace (try_finally body final w i s)).
Proof.
  intros Hbody Hfinal. unfold try_finally.
  destruct (body w i s) as [tr s' [a|e| |]]; cbn in *; try exact Hbody.
  all: specialize (Hfinal s');
    destruct (final w i s') as [tr' s'' [a'|e'| |]]; cbn in *;
    apply never_app; auto.
Qed.

(** An iteration that ends, by [continue] or by reaching the end of the body,
    is followed by the next one. *)
Lemma while_true_next (fuel : nat) (body : M unit) (w : World) (i : nat)
    (s : option datetime) :
  outcome (body w i s) = Continue \/ outcome (body w i s) = Val tt ->
  while_true (S fuel) body w i s =
  after (trace (body w i s))
    (while_true fuel body w (S i) (last_trade_time (body w i s))).
Proof.
  cbn [while_true]. destruct (body w i s) as [tr s' o]. cbn.
  intros [-> | ->];
    destruct (while_true fuel body w (S i) s'); reflexivity.
Qed.

(** [while True:] has no normal exit: it is left by an exception or not at
    all. *)
Lemma while_true_leaves_by_exception (body : M unit) (fuel : nat) (w : World)
    (i : nat) (s : option datetime) :
  outcome (while_true fuel body w i s) = OutOfFuel \/
  exists e, outcome (while_true fuel body w i s) = Exc e.
Proof.
  revert w i s. induction fuel as [|fuel IH]; intros w i s.
  - left. reflexivity.
  - cbn [while_true].
    destruct (body w i s) as [tr s' [[]|e| |]]; cbn; eauto.
    all: specialize (IH w (S i) s');
      destruct (while_true fuel body w (S i) s') as [tr' s'' o]; exact IH.
Qed.

(** ** The throttle *)

(** C2.  When [last_trade_time] is set and the clock read on line 32 is less
    than [min_seconds_between_trades] after it, the iteration fetches no
    quote, sizes no position and submits no order, and leaves
    [last_trade_time] as it was.  [min_seconds_between_trades] is at most
    2^33 seconds in absolute value, the range on which [throttled] is the
    comparison of line 33. *)
Theorem throttle_gate_skips_cycle (cfg : Config) (w : World) (i : nat)
    (t now : datetime) :
  (Z.abs (min_seconds_between_trades cfg) <= 2 ^ 33)%Z ->
  w i 32%nat datetime_now = Ok now ->
  (now - t < min_seconds_between_trades cfg * 1000000)%Z ->
  let r := cycle cfg w i (Some t) in
  never is_quote (trace r) /\ never is_sizing (trace r) /\
  never is_submit (trace r) /\ last_trade_time r = Some t.
Proof.
  intros _ Hnow Hlt.
  assert (Hthr : throttled (Some t) now (min_seconds_between_trades cfg) = true)
    by (apply Z.ltb_lt; exact Hlt).
  cbv zeta. unfold cycle. walk w; settle; auto.
Qed.

Lemma throttle_gate_skips_cycle_witness :
  let r := cycle eurusd (scripted buy_day) 1%nat (Some 79%Z) in
  never is_quote (trace r) /\ never is_sizing (trace r) /\
  never is_submit (trace r) /\ last_trade_time r = Some 79%Z.
Proof.
  apply (throttle_gate_skips_cycle eurusd (scripted buy_day) 1%nat 79%Z
           15000032%Z).
  - vm_compute. discriminate.
  - reflexivity.
  - reflexivity.
Defined.

(** C10.  With [last_trade_time] unset the throttle never rejects, whatever
    [min_seconds_between_trades] is: the waiting message of line 34 is not
    printed, and an iteration that qualifies for a trade submits its
    order. *)
Theorem unset_last_trade_time_never_throttles (cfg : Config) (w : World)
    (i : nat) :
  let r := cycle cfg w i None in
  ~ In (EvCall 34 (print MsgWaiting)) (trace r) /\
  (qualifies cfg w i -> existsb is_submit (trace r) = true).
Proof.
  cbv zeta. split.
  - unfold cycle. walk w; settle; intros Hin; find_event Hin.
    all: cbv [throttled] in *; discriminate.
  - intros (raw & df & signal & bar & stamp & now & open_pos & tick & lots &
            Hfetch & Hcalc & Hsignal & Hstamp & Hlog & Hnow & Hcount & Hfree &
            Hlast & Hatr & Hquote & Hsize & Hlots).
    assert (Hgate : (open_pos >=? max_positions cfg)%Z = false)
      by (rewrite Z.geb_leb; apply Z.leb_gt; exact Hfree).
    unfold cycle. walk w; settle; try reflexivity.
    all: cbv [throttled] in *; discriminate.
Qed.

Lemma unset_last_trade_time_never_throttles_witness :
  existsb is_submit (trace (cycle eurusd (scripted buy_day) 0%nat None)) = true.
Proof.
  apply (unset_last_trade_time_never_throttles eurusd (scripted buy_day) 0%nat).
  exists [ {| o_open := 1.1998; o_high := 1.2003; o_low := 1.1995;
              o_close := 1.2 |} ]%float,
         [ {| bar_close := 1.2; bar_atr := 0.001 |} ]%float,
         "buy", {| bar_close := 1.2; bar_atr := 0.001 |}, 28%Z, 32%Z, 0%Z,
         quote, 0.1%float.
  repeat split; reflexivity.
Defined.

(** ** The exposure gate *)

(** C3.  When the open-position count of the configured symbol has reached
    [max_positions], the iteration fetches no quote, sizes no position and
    submits no order. *)
Theorem exposure_gate_skips_cycle (cfg : Config) (w : World) (i : nat)
    (s : option datetime) (open_pos : Z) :
  w i 40%nat (count_open_positions (symbol cfg)) = Ok open_pos ->
  (open_pos >= max_positions cfg)%Z ->
  let r := cycle cfg w i s in
  never is_quote (trace r) /\ never is_sizing (trace r) /\
  never is_submit (trace r) /\ last_trade_time r = s.
Proof.
  intros Hcount Hge.
  assert (Hfull : (open_pos >=? max_positions cfg)%Z = true)
    by (apply Z.geb_le; lia).
  cbv zeta. unfold cycle. walk w; settle; auto.
Qed.

Lemma exposure_gate_skips_cycle_witness :
  let r := cycle eurusd (scripted exposed_day) 0%nat None in
  never is_quote (trace r) /\ never is_sizing (trace r) /\
  never is_submit (trace r) /\ last_trade_time r = None.
Proof.
  apply (exposure_gate_skips_cycle eurusd (scripted exposed_day) 0%nat None _ eq_refl).
  cbn. lia.
Defined.

(** ** No signal *)

(** X2.  Without a signal the iteration fetches no quote, sizes no position
    and submits no order, and it leaves [last_trade_time] alone. *)
Theorem no_signal_no_trade (cfg : Config) (w : World) (i : nat)
    (s : option datetime) (raw : OhlcFrame) (df : IndFrame) :
  w i 23%nat (fetch_ohlc (symbol cfg) (timeframe cfg) (history_bars cfg))
    = Ok raw ->
  w i 24%nat (calc_indicators raw) = Ok df ->
  w i 27%nat (generate_signal df) = Ok None ->
  let r := cycle cfg w i s in
  never is_quote (trace r) /\ never is_sizing (trace r) /\
  never is_submit (trace r) /\ last_trade_time r = s.
Proof.
  intros Hfetch Hcalc Hsignal. cbv zeta.
  unfold cycle. walk w; settle; repeat split; reflexivity.
Qed.

Lemma no_signal_no_trade_witness :
  let r := cycle eurusd (scripted idle_day) 0%nat None in
  never is_quote (trace r) /\ never is_sizing (trace r) /\
  never is_submit (trace r) /\ last_trade_time r = None.
Proof.
  exact (no_signal_no_trade eurusd (scripted idle_day) 0%nat None _ _
           eq_refl eq_refl eq_refl).
Defined.

(** ** The ATR guard *)

(** C1, as the code has it.  When the ATR of the latest row is NaN or is not
    above zero (negative infinity included), the iteration submits no order:
    [place_order] is not entered and the broker is not asked to execute. *)
Theorem invalid_atr_never_submits (cfg : Config) (w : World) (i : nat)
    (s : option datetime) (raw : OhlcFrame) (df : IndFrame) (bar : IndBar) :
  w i 23%nat (fetch_ohlc (symbol cfg) (timeframe cfg) (history_bars cfg))
    = Ok raw ->
  w i 24%nat (calc_indicators raw) = Ok df ->
  latest df = Some bar ->
  PrimFloat.is_nan (bar_atr bar) = true \/ (bar_atr bar <=? 0)%float = true ->
  never is_submit (trace (cycle cfg w i s)).
Proof.
  intros Hfetch Hcalc Hlast Hbad.
  assert (Hguard : invalid_atr (bar_atr bar) = true)
    by (unfold invalid_atr; destruct Hbad as [-> | ->];
        auto using orb_true_r).
  unfold cycle. walk w; settle; auto.
Qed.

Lemma invalid_atr_never_submits_witness :
  never is_submit (trace (cycle eurusd (scripted warmup_day) 0%nat None)).
Proof.
  apply (invalid_atr_never_submits eurusd (scripted warmup_day) 0%nat None
           _ _ _ eq_refl eq_refl eq_refl).
  left. reflexivity.
Defined.

(** C1 as the specification words it fails: positive infinity is "non-finite",
    the guard on line 53 lets it through, and with a buy signal and a sizing
    helper that answers a tenth of a lot the iteration enters [place_order]
    with a stop at negative infinity. *)
Lemma positive_infinity_atr_reaches_submission :
  ~ (forall cfg (w : World) i s raw df bar,
       w i 23%nat (fetch_ohlc (symbol cfg) (timeframe cfg) (history_bars cfg))
         = Ok raw ->
       w i 24%nat (calc_indicators raw) = Ok df ->
       latest df = Some bar ->
       spec_invalid_atr (bar_atr bar) = true ->
       never is_submit (trace (cycle cfg w i s))).
Proof.
  intros claim.
  specialize
    (claim eurusd (scripted unbounded_day) 0%nat None _ _ _
       eq_refl eq_refl eq_refl eq_refl).
  vm_compute in claim. discriminate claim.
Qed.

(** X3.  An ATR that is NaN or not above zero never reaches the quote or the
    sizing helper, and the iteration leaves [last_trade_time] alone. *)
Theorem invalid_atr_skips_quote_and_sizing (cfg : Config) (w : World)
    (i : nat) (s : option datetime) (raw : OhlcFrame) (df : IndFrame)
    (bar : IndBar) :
  w i 23%nat (fetch_ohlc (symbol cfg) (timeframe cfg) (history_bars cfg))
    = Ok raw ->
  w i 24%nat (calc_indicators raw) = Ok df ->
  latest df = Some bar ->
  invalid_atr (bar_atr bar) = true ->
  let r := cycle cfg w i s in
  never is_quote (trace r) /\ never is_sizing (trace r) /\
  last_trade_time r = s.
Proof.
  intros Hfetch Hcalc Hlast Hguard. cbv zeta.
  unfold cycle. walk w; settle; repeat split; reflexivity.
Qed.

Lemma invalid_atr_skips_quote_and_sizing_witness :
  let r := cycle eurusd (scripted warmup_day) 0%nat None in
  never is_quote (trace r) /\ never is_sizing (trace r) /\
  last_trade_time r = None.
Proof.
  exact (invalid_atr_skips_quote_and_sizing eurusd (scripted warmup_day)
           0%nat None _ _ _ eq_refl eq_refl eq_refl eq_refl).
Defined.

(** ** Stop and target *)

(** C4 fails in binary64.  With a positive ATR of 1e-17, positive multipliers
    1.5 and 3.0 and an ask of 1.2, both offsets are below half the spacing of
    the floating-point numbers around 1.2 and are absorbed: the stop and the
    target of the buy order are the entry price itself, and the iteration goes
    on to submit that order. *)
Lemma price_levels_offset_absorbed :
  (0 <? sc_atr flat_day)%float = true /\
  (0 <? atr_multiplier_sl eurusd)%float = true /\
  (0 <? atr_multiplier_tp eurusd)%float = true /\
  outcome (price_levels eurusd "buy" (sc_atr flat_day) (scripted flat_day)
             0%nat None)
  = Val (1.2, 1.2, 1.2)%float /\
  (1.2 <? 1.2)%float = false /\
  In (EvPlaceOrder "EURUSD" "buy" 0.1 1.2 1.2 1.2)
     (trace (cycle eurusd (scripted flat_day) 0%nat None)).
Proof.
  repeat split; try reflexivity.
  vm_compute. auto 12.
Qed.

(** ** Sizing *)

(** C8.  When the sizing helper is reached and answers a lot size that is not
    above zero, the iteration submits no order and leaves [last_trade_time]
    alone; with the message printed and the five-second sleep done it ends by
    [continue], and the loop goes on with the next iteration. *)
Theorem nonpositive_lots_skips_cycle (cfg : Config) (w : World) (i : nat)
    (s : option datetime) (entry sl lots : float) :
  In (EvCall 70 (estimate_lots_by_sl (symbol cfg) entry sl))
     (trace (cycle cfg w i s)) ->
  w i 70%nat (estimate_lots_by_sl (symbol cfg) entry sl) = Ok lots ->
  (lots <=? 0)%float = true ->
  let r := cycle cfg w i s in
  never is_submit (trace r) /\ last_trade_time r = s /\
  (w i 72%nat (print MsgLotsSkip) = Ok tt ->
   w i 73%nat (sleep 5) = Ok tt ->
   outcome r = Continue /\
   (exists pre,
      trace r = (pre ++ [EvCall 72 (print MsgLotsSkip); EvCall 73 (sleep 5)])%list) /\
   forall fuel,
     while_true (S fuel) (cycle cfg) w i s =
     after (trace r) (while_true fuel (cycle cfg) w (S i) s)).
Proof.
  intros Hin Hlots Hle. cbv zeta.
  assert (Hpath :
    never is_submit (trace (cycle cfg w i s)) /\
    last_trade_time (cycle cfg w i s) = s /\
    (w i 72%nat (print MsgLotsSkip) = Ok tt ->
     w i 73%nat (sleep 5) = Ok tt ->
     outcome (cycle cfg w i s) = Continue /\
     exists pre,
       trace (cycle cfg w i s) =
       (pre ++ [EvCall 72 (print MsgLotsSkip); EvCall 73 (sleep 5)])%list)).
  { revert Hin. unfold cycle. walk w; settle; intros Hin; find_event Hin.
    all: try congruence.
    all: repeat split; auto; try congruence.
    all: match goal with
         | |- exists pre, ?tr = _ =>
             exists (removelast (removelast tr)); reflexivity
         end. }
  destruct Hpath as (Hnever & Hstate & Hskip).
  split; [exact Hnever|]. split; [exact Hstate|].
  intros Hprint Hsleep. destruct (Hskip Hprint Hsleep) as [Hout Hpre].
  split; [exact Hout|]. split; [exact Hpre|].
  intros fuel.
  rewrite while_true_next by (left; exact Hout). now rewrite Hstate.
Qed.

Lemma nonpositive_lots_skips_cycle_witness :
  let r := cycle eurusd (scripted unsized_day) 0%nat None in
  never is_submit (trace r) /\ last_trade_time r = None /\ outcome r = Continue.
Proof.
  destruct
    (nonpositive_lots_skips_cycle eurusd (scripted unsized_day) 0%nat None
       (bid quote) (bid quote + 1.5 * 0.001)%float 0%float)
    as (Hnever & Hstate & Hskip).
  - cbv. auto 12.
  - reflexivity.
  - reflexivity.
  - destruct (Hskip eq_refl eq_refl) as [Hout _]. auto.
Defined.

(** ** The broker's answer *)

(** C7.  With the broker's result in hand, [place_order] sends the request
    once and prints the success message exactly when the return code is
    [TRADE_RETCODE_DONE], the failure message with the code and the comment
    otherwise; with the message printed it returns the result either way.  In
    the loop, an iteration whose request got an answer, accepted or not, sends
    nothing a second time, runs to its end, and is followed by the next
    iteration. *)
Theorem order_outcome_classified (request : OrderRequest) (lots price : float)
    (w : World) (i : nat) (s : option datetime) (result : SendResult) :
  w i 2%nat (order_send request) = Ok (Some result) ->
  let r := place_order_send request lots price w i s in
  let placed := EvCall 6 (print (MsgOrderPlaced (order result) lots price)) in
  let failed :=
    EvCall 4 (print (MsgOrderFailed (retcode result) (comment result))) in
  trace r =
    [EvCall 2 (order_send request);
     if (retcode result =? TRADE_RETCODE_DONE)%Z then placed else failed] /\
  last_trade_time r = s /\
  ((forall line m, w i line (print m) = Ok tt) -> outcome r = Val result) /\
  (forall cfg s0 t,
      In (EvCall 2 (order_send request)) (trace (cycle cfg w i s0)) ->
      (forall line m, w i line (print m) = Ok tt) ->
      w i 79%nat datetime_now = Ok t ->
      w i 83%nat (sleep 10) = Ok tt ->
      let c := cycle cfg w i s0 in
      List.length (filter is_order_send (trace c)) = 1%nat /\
      outcome c = Val tt /\
      forall fuel,
        while_true (S fuel) (cycle cfg) w i s0 =
        after (trace c) (while_true fuel (cycle cfg) w (S i) (Some t))).
Proof.
  intros Hsend. cbv zeta. split; [|split; [|split]].
  - unfold place_order_send.
    destruct (retcode result =? TRADE_RETCODE_DONE)%Z eqn:Hcode;
      walk w; settle; reflexivity.
  - unfold place_order_send. walk w; settle; reflexivity.
  - intros Hprint. unfold place_order_send. walk w; settle; reflexivity.
  - intros cfg s0 t Hin Hprint Hclock Hsleep.
    assert (Hpath :
      List.length (filter is_order_send (trace (cycle cfg w i s0))) = 1%nat /\
      outcome (cycle cfg w i s0) = Val tt /\
      last_trade_time (cycle cfg w i s0) = Some t).
    { revert Hin. unfold cycle.
      walk w; settle; intros Hin; find_event Hin; try congruence.
      all: repeat split; reflexivity. }
    destruct Hpath as (Honce & Hout & Hstate).
    split; [exact Honce|]. split; [exact Hout|].
    intros fuel.
    rewrite while_true_next by (right; exact Hout). now rewrite Hstate.
Qed.

Lemma order_outcome_classified_witness :
  let request :=
    {| req_symbol := "EURUSD"; req_side := "sell"; req_volume := 0.1;
       req_price := 1.1999; req_sl := 1.2014; req_tp := 1.1969 |}%float in
  trace (place_order_send request 0.1 1.1999 (scripted rejected_day) 0%nat None) =
  [EvCall 2 (order_send request);
   EvCall 4 (print (MsgOrderFailed 10016 "reply"))].
Proof.
  exact (proj1 (order_outcome_classified _ 0.1%float 1.1999%float
                  (scripted rejected_day) 0%nat None _ eq_refl)).
Defined.

(** ** Dry run *)

Lemma dry_cycle_never_sends (cfg : Config) (w : World) (i : nat)
    (s : option datetime) :
  dry_run cfg = true -> never is_order_send (trace (cycle cfg w i s)).
Proof.
  intros Hdry. unfold cycle. walk w; settle; reflexivity.
Qed.

(** C5.  With [dry_run] set, [place_order] sends nothing to the broker and
    returns the simulated result, and no run of the program, however long,
    calls [mt5.order_send]. *)
Theorem dry_run_never_sends (cfg : Config) :
  dry_run cfg = true ->
  (forall sym side lots price sl tp w i s,
      place_order cfg sym side lots price sl tp w i s =
      mkResult
        [EvPlaceOrder sym side lots price sl tp; EvPlaceOrderReturn Skipped]
        s (Val Skipped)) /\
  (forall fuel w i s, never is_order_send (trace (main cfg fuel w i s))).
Proof.
  intros Hdry. split.
  - intros. unfold place_order. rewrite Hdry. reflexivity.
  - intros fuel w i s. unfold main, main_loop.
    repeat (apply never_bind; [now apply never_call | intros ? ?]).
    apply never_try_finally.
    + apply never_try_except.
      * apply never_while_true. intros. now apply dry_cycle_never_sends.
      * intros. now apply (never_call _ 85 (print MsgInterrupted)).
    + intros. apply never_bind; [now apply never_call | intros ? ?].
      now apply (never_call _ 88 (print MsgDisconnected)).
Qed.

Lemma dry_run_never_sends_witness :
  never is_order_send (trace (main eurusd_dry 5 (scripted buy_day) 0%nat None)).
Proof.
  apply (proj2 (dry_run_never_sends eurusd_dry eq_refl)).
Defined.

(** ** The trade timestamp *)

(** An iteration in which [place_order] has not returned leaves
    [last_trade_time] as it was. *)
Lemma cycle_keeps_timestamp (cfg : Config) : keeps_timestamp (cycle cfg).
Proof.
  intros w i s. unfold cycle. walk w; settle; intros Hnone; try reflexivity.
  all: exfalso; eapply Hnone; show_event.
Qed.

Lemma call_keeps_timestamp (l : nat) (c : Call) : keeps_timestamp (call l c).
Proof. intros w i s _. unfold call. destruct (w i l c); reflexivity. Qed.

Lemma bind_keeps_timestamp {A B} (m : M A) (f : A -> M B) :
  keeps_timestamp m -> (forall a, keeps_timestamp (f a)) ->
  keeps_timestamp (bind m f).
Proof.
  intros Hm Hf w i s. specialize (Hm w i s). unfold bind.
  destruct (m w i s) as [tr s' [a|e| |]]; cbn in *; try exact Hm.
  specialize (Hf a w i s'). destruct (f a w i s') as [tr' s'' o]. cbn in *.
  intros Hnone.
  assert (Hs' : s' = s)
    by (apply Hm; intros res Hin; apply (Hnone res), in_or_app; auto).
  subst s'. apply Hf. intros res Hin. apply (Hnone res), in_or_app; auto.
Qed.

Lemma while_true_keeps_timestamp (body : M unit) (fuel : nat) :
  keeps_timestamp body -> keeps_timestamp (while_true fuel body).
Proof.
  intros Hbody. induction fuel as [|fuel IH]; intros w i s.
  - reflexivity.
  - cbn [while_true]. specialize (Hbody w i s).
    destruct (body w i s) as [tr s' [[]|e| |]]; cbn in *; try exact Hbody.
    all: specialize (IH w (S i) s');
      destruct (while_true fuel body w (S i) s') as [tr' s'' o]; cbn in *;
      intros Hnone;
      assert (Hs' : s' = s)
        by (apply Hbody; intros res Hin; apply (Hnone res), in_or_app; auto);
      subst s'; apply IH; intros res Hin;
      apply (Hnone res), in_or_app; auto.
Qed.

Lemma try_except_keeps_timestamp (body handler : M unit) :
  keeps_timestamp body -> keeps_timestamp handler ->
  keeps_timestamp (try_except_KeyboardInterrupt body handler).
Proof.
  intros Hbody Hhandler w i s. specialize (Hbody w i s).
  unfold try_except_KeyboardInterrupt.
  destruct (body w i s) as [tr s' [a|[]| |]]; cbn in *; try exact Hbody.
  specialize (Hhandler w i s'). destruct (handler w i s') as [tr' s'' o].
  cbn in *. intros Hnone.
  assert (Hs' : s' = s)
    by (apply Hbody; intros res Hin; apply (Hnone res), in_or_app; auto).
  subst s'. apply Hhandler. intros res Hin.
  apply (Hnone res), in_or_app; auto.
Qed.

Lemma try_finally_keeps_timestamp (body final : M unit) :
  keeps_timestamp body -> keeps_timestamp final ->
  keeps_timestamp (try_finally body final).
Proof.
  intros Hbody Hfinal w i s. specialize (Hbody w i s). unfold try_finally.
  destruct (body w i s) as [tr s' [a|e| |]]; cbn in *; try exact Hbody.
  all: specialize (Hfinal w i s');
    destruct (final w i s') as [tr' s'' [a'|e'| |]]; cbn in *;
    intros Hnone;
    assert (Hs' : s' = s)
      by (apply Hbody; intros res Hin; apply (Hnone res), in_or_app; auto);
    subst s'; apply Hfinal; intros res Hin;
    apply (Hnone res), in_or_app; auto.
Qed.

Lemma main_keeps_timestamp (cfg : Config) (fuel : nat) :
  keeps_timestamp (main cfg fuel).
Proof.
  unfold main, main_loop.
  repeat (apply bind_keeps_timestamp;
          [apply call_keeps_timestamp | intros ?]).
  apply try_finally_keeps_timestamp.
  - apply try_except_keeps_timestamp.
    + apply while_true_keeps_timestamp, cycle_keeps_timestamp.
    + apply (call_keeps_timestamp 85 (print MsgInterrupted)).
  - apply bind_keeps_timestamp; [apply call_keeps_timestamp | intros ?].
    apply (call_keeps_timestamp 88 (print MsgDisconnected)).
Qed.

(** C6.  [last_trade_time] becomes the clock read on line 79 whenever
    [place_order] has returned, whatever it returned (a broker result with
    any return code, or the simulated one); an iteration in which
    [place_order] has not returned leaves it as it was, and so does a whole
    run of the program. *)
Theorem last_trade_time_follows_submission (cfg : Config) (w : World)
    (i : nat) (s : option datetime) :
  let r := cycle cfg w i s in
  (forall res t,
      In (EvPlaceOrderReturn res) (trace r) ->
      w i 79%nat datetime_now = Ok t ->
      last_trade_time r = Some t) /\
  ((forall res, ~ In (EvPlaceOrderReturn res) (trace r)) ->
   last_trade_time r = s) /\
  (forall fuel,
      (forall res, ~ In (EvPlaceOrderReturn res) (trace (main cfg fuel w i s))) ->
      last_trade_time (main cfg fuel w i s) = s).
Proof.
  cbv zeta. split; [|split].
  - intros res t Hin Hclock. revert Hin.
    unfold cycle. walk w; settle; intros Hin; find_event Hin; reflexivity.
  - apply cycle_keeps_timestamp.
  - intros fuel. apply main_keeps_timestamp.
Qed.

Lemma last_trade_time_follows_submission_witness :
  let r := cycle eurusd (scripted rejected_day) 0%nat None in
  In (EvPlaceOrderReturn
        (Sent {| retcode := 10016; comment := "reply"; order := 7 |}))
     (trace r) /\
  last_trade_time r = Some 79%Z.
Proof.
  split; [cbv; auto 20|].
  eapply (proj1 (last_trade_time_follows_submission
                   eurusd (scripted rejected_day) 0%nat None)).
  - cbv. auto 20.
  - reflexivity.
Defined.

(** ** Leaving the loop *)

(** The [finally] block of [main_loop]: once the body has ended, however it
    ended, [disconnect_mt5] is the next call. *)
Lemma finally_disconnects (body : M unit) (w : World) (i : nat)
    (s : option datetime) :
  let r :=
    try_finally body
      (call 87 disconnect_mt5;; call 88 (print MsgDisconnected)) w i s in
  outcome r <> OutOfFuel ->
  exists post,
    trace r = (trace (body w i s) ++ EvCall 87 disconnect_mt5 :: post)%list /\
    (post = [] \/ post = [EvCall 88 (print MsgDisconnected)]).
Proof.
  cbv zeta. unfold try_finally.
  destruct (body w i s) as [tr s' [a|e| |]]; cbn [outcome trace];
    try congruence; intros _.
  all: rewrite run_call; destruct (w i 87%nat disconnect_mt5);
    [ rewrite run_last_call;
      destruct (w i 88%nat (print MsgDisconnected)) | ];
    cbn; eauto.
Qed.

(** C9.  Once the session is open and the loop entered, every run of
    [main_loop] that ends (by an interrupt from the keyboard or by any other
    exception leaving an iteration) has called [disconnect_mt5] after the last
    call of the loop; only the closing message may follow. *)
Theorem main_loop_always_disconnects (cfg : Config) (fuel : nat) (w : World)
    (i : nat) (s : option datetime) :
  w i 17%nat connect_mt5 = Ok tt ->
  w i 18%nat (print MsgConnected) = Ok tt ->
  let r := main_loop cfg fuel w i s in
  let loop :=
    try_except_KeyboardInterrupt
      (while_true fuel (cycle cfg)) (call 85 (print MsgInterrupted)) w i s in
  outcome r <> OutOfFuel ->
  exists post,
    trace r =
      ([EvCall 17 connect_mt5; EvCall 18 (print MsgConnected)] ++
       trace loop ++ EvCall 87 disconnect_mt5 :: post)%list /\
    (post = [] \/ post = [EvCall 88 (print MsgDisconnected)]).
Proof.
  intros Hconnect Hlog. cbv zeta. unfold main_loop. walk w.
  cbn [after outcome trace last_trade_time]. intros Hended.
  destruct (finally_disconnects _ w i s Hended) as (post & Htrace & Hpost).
  exists post. split; [|exact Hpost].
  rewrite Htrace. reflexivity.
Qed.

Lemma main_loop_always_disconnects_witness :
  outcome (main_loop eurusd 5 (scripted buy_day) 0%nat None) = Val tt /\
  exists post,
    trace (main_loop eurusd 5 (scripted buy_day) 0%nat None) =
      ([EvCall 17 connect_mt5; EvCall 18 (print MsgConnected)] ++
       trace (try_except_KeyboardInterrupt
                (while_true 5 (cycle eurusd)) (call 85 (print MsgInterrupted))
                (scripted buy_day) 0%nat None) ++
       EvCall 87 disconnect_mt5 :: post)%list /\
    (post = [] \/ post = [EvCall 88 (print MsgDisconnected)]).
Proof.
  split; [reflexivity|].
  apply (main_loop_always_disconnects eurusd 5 (scripted buy_day) 0%nat None
           eq_refl eq_refl).
  vm_compute. discriminate.
Defined.

(** X4.  A keyboard interrupt raised in an iteration is caught: the message of
    line 85 is printed, the session is closed and [main_loop] returns. *)
Theorem keyboard_interrupt_ends_run (cfg : Config) (fuel : nat) (w : World)
    (i : nat) (s : option datetime) :
  w i 17%nat connect_mt5 = Ok tt ->
  w i 18%nat (print MsgConnected) = Ok tt ->
  outcome (while_true fuel (cycle cfg) w i s) = Exc KeyboardInterrupt ->
  w i 85%nat (print MsgInterrupted) = Ok tt ->
  w i 87%nat disconnect_mt5 = Ok tt ->
  w i 88%nat (print MsgDisconnected) = Ok tt ->
  let r := main_loop cfg fuel w i s in
  outcome r = Val tt /\
  trace r =
    ([EvCall 17 connect_mt5; EvCall 18 (print MsgConnected)] ++
     trace (while_true fuel (cycle cfg) w i s) ++
     [EvCall 85 (print MsgInterrupted); EvCall 87 disconnect_mt5;
      EvCall 88 (print MsgDisconnected)])%list.
Proof.
  intros Hconnect Hlog Hloop Hnote Hclose Hbye. cbv zeta.
  unfold main_loop. walk w.
  unfold try_finally, try_except_KeyboardInterrupt.
  destruct (while_true fuel (cycle cfg) w i s) as [tr s' o].
  cbn in Hloop. subst o.
  rewrite run_last_call, Hnote, run_call, Hclose, run_last_call, Hbye.
  cbn. rewrite <- app_assoc. split; reflexivity.
Qed.

Lemma keyboard_interrupt_ends_run_witness :
  outcome (main_loop eurusd 5 (scripted buy_day) 0%nat None) = Val tt.
Proof.
  apply (keyboard_interrupt_ends_run eurusd 5 (scripted buy_day) 0%nat None);
    reflexivity.
Defined.

(** X5.  Any other exception raised in an iteration ends the program: the
    session is closed and the exception leaves [main_loop]. *)
Theorem other_exception_leaves_main_loop (cfg : Config) (fuel : nat)
    (w : World) (i : nat) (s : option datetime) (e : Exn) :
  w i 17%nat connect_mt5 = Ok tt ->
  w i 18%nat (print MsgConnected) = Ok tt ->
  outcome (while_true fuel (cycle cfg) w i s) = Exc e ->
  e <> KeyboardInterrupt ->
  w i 87%nat disconnect_mt5 = Ok tt ->
  w i 88%nat (print MsgDisconnected) = Ok tt ->
  let r := main_loop cfg fuel w i s in
  outcome r = Exc e /\
  trace r =
    ([EvCall 17 connect_mt5; EvCall 18 (print MsgConnected)] ++
     trace (while_true fuel (cycle cfg) w i s) ++
     [EvCall 87 disconnect_mt5; EvCall 88 (print MsgDisconnected)])%list.
Proof.
  intros Hconnect Hlog Hloop Hother Hclose Hbye. cbv zeta.
  unfold main_loop. walk w.
  unfold try_finally, try_except_KeyboardInterrupt.
  destruct (while_true fuel (cycle cfg) w i s) as [tr s' o].
  cbn in Hloop. subst o.
  destruct e; try contradiction;
    rewrite run_call, Hclose, run_last_call, Hbye; split; reflexivity.
Qed.

Lemma other_exception_leaves_main_loop_witness :
  outcome (main_loop eurusd 5 feed_loss 0%nat None) =
  Exc (OtherError "no connection").
Proof.
  apply (other_exception_leaves_main_loop eurusd 5 feed_loss 0%nat None);
    try reflexivity.
  discriminate.
Defined.

(** ** Floating-point comparisons

    What the two guards of the loop, [atr <= 0] and [lots <= 0], let
    through, read off the IEEE-754 comparison. *)

(** A number that is not [<= 0] is above zero or is NaN. *)
Lemma not_leb_zero (x : float) :
  (x <=? 0)%float = false ->
  (0 <? x)%float = true \/ PrimFloat.is_nan x = true.
Proof.
  unfold PrimFloat.is_nan.
  rewrite leb_spec, ltb_spec, eqb_spec.
  change (Prim2SF 0) with (S754_zero false).
  destruct (Prim2SF x) as [sx|sx| |sx m e];
    unfold SFleb, SFltb, SFeqb; cbn [SFcompare];
    try destruct sx; intros H; try discriminate H; auto.
Qed.

(** NaN is [<=] nothing. *)
Lemma nan_not_leb (x y : float) :
  PrimFloat.is_nan x = true -> (x <=? y)%float = false.
Proof.
  unfold PrimFloat.is_nan. rewrite leb_spec, eqb_spec.
  destruct (Prim2SF x) as [sx|sx| |sx m e];
    unfold SFleb, SFeqb; cbn [SFcompare]; try reflexivity;
    try destruct sx; try discriminate.
  all: rewrite Z.compare_refl, Pos.compare_cont_refl; discriminate.
Qed.

(** An ATR that passes the guard of line 53 is above zero. *)
Lemma guard_passed_positive (atr : float) :
  invalid_atr atr = false -> (0 <? atr)%float = true.
Proof.
  unfold invalid_atr. intros H. apply orb_false_iff in H as [Hnan Hle].
  destruct (not_leb_zero atr Hle) as [Hpos | Hnan']; [exact Hpos|].
  congruence.
Qed.

(** ** What reaches [place_order] *)

(** X6.  Every order that enters [place_order] is for the configured symbol,
    carries the generated signal as its side, the lot size that the sizing
    helper returned for its own entry and stop, a lot size that is above zero
    or NaN, and levels computed from the live quote and an ATR above zero.
    For "buy" the entry is the ask, the stop the binary64 value of
    entry - [atr_multiplier_sl] * ATR and the target that of
    entry + [atr_multiplier_tp] * ATR; for any other signal the entry is the
    bid and the two signs are exchanged.  On which side of the entry the stop
    and the target fall is not part of it: that depends on the signs of the
    multipliers, and an offset that is small beside the price is absorbed by
    the rounding. *)
Theorem orders_are_sized_and_priced (cfg : Config) (w : World) (i : nat)
    (s : option datetime) (sym side : string) (lots price sl tp : float) :
  In (EvPlaceOrder sym side lots price sl tp) (trace (cycle cfg w i s)) ->
  sym = symbol cfg /\
  w i 70%nat (estimate_lots_by_sl (symbol cfg) price sl) = Ok lots /\
  ((0 <? lots)%float = true \/ PrimFloat.is_nan lots = true) /\
  exists raw df bar tick,
    w i 23%nat (fetch_ohlc (symbol cfg) (timeframe cfg) (history_bars cfg))
      = Ok raw /\
    w i 24%nat (calc_indicators raw) = Ok df /\
    w i 27%nat (generate_signal df) = Ok (Some side) /\
    latest df = Some bar /\
    (0 <? bar_atr bar)%float = true /\
    ((side = "buy" /\
      w i 60%nat (symbol_info_tick (symbol cfg)) = Ok (Some tick) /\
      price = ask tick /\
      sl = (price - atr_multiplier_sl cfg * bar_atr bar)%float /\
      tp = (price + atr_multiplier_tp cfg * bar_atr bar)%float) \/
     (side <> "buy" /\
      w i 64%nat (symbol_info_tick (symbol cfg)) = Ok (Some tick) /\
      price = bid tick /\
      sl = (price + atr_multiplier_sl cfg * bar_atr bar)%float /\
      tp = (price - atr_multiplier_tp cfg * bar_atr bar)%float)).
Proof.
  unfold cycle. walk w; settle; intros Hin; find_event Hin.
  all: split; [reflexivity|]; split; [assumption|];
    split; [now apply not_leb_zero|].
  all: match goal with
       | Hf : _ _ 23%nat _ = Ok ?raw, Hc : _ _ 24%nat _ = Ok ?df,
         Hl : latest _ = Some ?bar,
         Hq : _ _ _ (symbol_info_tick _) = Ok (Some ?tick)
         |- _ => exists raw, df, bar, tick
       end.
  all: repeat split; try assumption; try (now apply guard_passed_positive).
  all: match goal with
       | T : (_ =? "buy")%string = true |- _ =>
           apply String.eqb_eq in T; left; repeat split; assumption
       | T : (_ =? "buy")%string = false |- _ =>
           apply String.eqb_neq in T; right; repeat split; assumption
       end.
Qed.

Lemma orders_are_sized_and_priced_witness :
  exists tick,
    scripted hold_day 0%nat 64%nat (symbol_info_tick "EURUSD")
      = Ok (Some tick) /\
    1.1999%float = bid tick.
Proof.
  destruct
    (orders_are_sized_and_priced eurusd (scripted hold_day) 0%nat None
       "EURUSD" "hold" 0.1 1.1999 (1.1999 + 1.5 * 0.001)
       (1.1999 - 3.0 * 0.001))
    as (_ & _ & _ & raw & df & bar & tick & _ & _ & _ & _ & _ &
        [(Hbuy & _) | (_ & Hquote & Hprice & _)]).
  - vm_compute. auto 12.
  - discriminate Hbuy.
  - exists tick. split; assumption.
Defined.

(** The reply that a walked path has met is the one a hypothesis names. *)
Ltac same_reply x :=
  match goal with
  | E : ?call = Ok ?a, H : ?call = Ok x |- _ =>
      rewrite H in E; injection E as E; subst a
  end.

(** X7.  A lot size of NaN is not stopped by the guard of line 71
    ([NaN <= 0] is false): the iteration enters [place_order] with it. *)
Theorem nan_lots_pass_the_guard (cfg : Config) (w : World) (i : nat)
    (s : option datetime) (entry sl lots : float) :
  In (EvCall 70 (estimate_lots_by_sl (symbol cfg) entry sl))
     (trace (cycle cfg w i s)) ->
  w i 70%nat (estimate_lots_by_sl (symbol cfg) entry sl) = Ok lots ->
  PrimFloat.is_nan lots = true ->
  exists side tp,
    In (EvPlaceOrder (symbol cfg) side lots entry sl tp)
       (trace (cycle cfg w i s)).
Proof.
  intros Hin Hreply Hnan.
  assert (Hle : (lots <=? 0)%float = false) by now apply nan_not_leb.
  revert Hin. unfold cycle.
  walk w; settle; intros Hin; find_event Hin.
  all: try same_reply lots; try congruence.
  all: do 2 eexists; show_event.
Qed.

Lemma nan_lots_pass_the_guard_witness :
  exists side tp,
    In (EvPlaceOrder "EURUSD" side nan 1.2 (1.2 - 1.5 * 0.001) tp)
       (trace (cycle eurusd (scripted nan_lots_day) 0%nat None)).
Proof.
  apply (nan_lots_pass_the_guard eurusd (scripted nan_lots_day) 0%nat None
           1.2%float (1.2 - 1.5 * 0.001)%float nan).
  - vm_compute. auto 12.
  - reflexivity.
  - reflexivity.
Defined.

(** X8.  An iteration that ends without an exception has slept exactly once:
    five seconds when it ends by [continue], ten when it runs to its end.  An
    iteration left by an exception has slept at most once. *)
Theorem iteration_sleeps_once (cfg : Config) (w : World) (i : nat)
    (s : option datetime) :
  let r := cycle cfg w i s in
  match outcome r with
  | Val _ => sleeps (trace r) = [10]
  | Continue => sleeps (trace r) = [5]
  | Exc _ => (List.length (sleeps (trace r)) <= 1)%nat
  | OutOfFuel => False
  end.
Proof.
  cbv zeta. unfold cycle. walk w; settle; cbn [sleeps List.length];
    first [reflexivity | lia].
Qed.

(** ** Counting calls *)

(** Occurrences add up over a concatenation. *)
Lemma occurrences_app (p : Event -> bool) (a b : list Event) :
  occurrences p (a ++ b) = (occurrences p a + occurrences p b)%nat.
Proof. unfold occurrences. now rewrite filter_app, length_app. Qed.

(** An iteration asks the broker for an execution at most once. *)
Lemma cycle_sends_at_most_once (cfg : Config) (w : World) (i : nat)
    (s : option datetime) :
  (occurrences is_order_send (trace (cycle cfg w i s)) <= 1)%nat.
Proof.
  unfold cycle. walk w; settle; cbv [occurrences filter is_order_send];
    cbn [List.length]; lia.
Qed.

(** X9.  Whatever the environment answers, an iteration counts the open
    positions, fetches the quote, sizes the position, enters [place_order]
    and calls [mt5.order_send] at most once each; a run of [n] iterations
    calls [mt5.order_send] at most [n] times. *)
Theorem iteration_asks_broker_once (cfg : Config) (w : World) (i : nat)
    (s : option datetime) :
  let tr := trace (cycle cfg w i s) in
  (occurrences is_count tr <= 1)%nat /\
  (occurrences is_quote tr <= 1)%nat /\
  (occurrences is_sizing tr <= 1)%nat /\
  (occurrences is_entry tr <= 1)%nat /\
  (occurrences is_order_send tr <= 1)%nat /\
  forall fuel,
    (occurrences is_order_send (trace (while_true fuel (cycle cfg) w i s))
     <= fuel)%nat.
Proof.
  cbv zeta. repeat split.
  1-4: unfold cycle; walk w; settle;
    cbv [occurrences filter is_count is_quote is_sizing is_entry];
    cbn [List.length]; lia.
  - apply cycle_sends_at_most_once.
  - intros fuel. revert i s. induction fuel as [|fuel IH]; intros i s.
    + cbn. lia.
    + cbn [while_true]. pose proof (cycle_sends_at_most_once cfg w i s) as H1.
      destruct (cycle cfg w i s) as [tr s' [[]|e| |]]; cbn [trace] in *;
        try lia.
      all: specialize (IH (S i) s');
        destruct (while_true fuel (cycle cfg) w (S i) s') as [tr' s'' o];
        cbn [trace] in *; rewrite occurrences_app; lia.
Qed.

(** ** The throttle from one iteration to the next *)

(** A run of at least one iteration starts with that iteration. *)
Lemma while_true_starts (fuel : nat) (body : M unit) (w : World) (i : nat)
    (s : option datetime) :
  exists rest,
    trace (while_true (S fuel) body w i s) = (trace (body w i s) ++ rest)%list.
Proof.
  cbn [while_true]. destruct (body w i s) as [tr s' [[]|e| |]]; cbn [trace].
  1,3: destruct (while_true fuel body w (S i) s') as [tr' s'' o];
    cbn [trace]; eauto.
  all: exists []; now rewrite app_nil_r.
Qed.

(** X10.  The throttle holds from one iteration to the next.  After an
    iteration in which [place_order] returned (the order accepted or not) and
    [last_trade_time] was set to [t], the loop runs the next iteration, and if
    its clock reads less than [min_seconds_between_trades] after [t] that
    iteration asks the broker for nothing: no position count, no quote, no
    sizing, no order.  [min_seconds_between_trades] is at most 2^33 seconds
    in absolute value, the range on which [throttled] is the comparison of
    line 33. *)
Theorem throttle_holds_after_submission (cfg : Config) (w : World) (i : nat)
    (s : option datetime) (res : PlaceResult) (t now : datetime) :
  (Z.abs (min_seconds_between_trades cfg) <= 2 ^ 33)%Z ->
  In (EvPlaceOrderReturn res) (trace (cycle cfg w i s)) ->
  w i 79%nat datetime_now = Ok t ->
  w i 83%nat (sleep 10) = Ok tt ->
  w (S i) 32%nat datetime_now = Ok now ->
  (now - t < min_seconds_between_trades cfg * 1000000)%Z ->
  let next := cycle cfg w (S i) (Some t) in
  never is_count (trace next) /\ never is_quote (trace next) /\
  never is_sizing (trace next) /\ never is_submit (trace next) /\
  last_trade_time next = Some t /\
  forall fuel, exists rest,
    trace (while_true (S (S fuel)) (cycle cfg) w i s) =
    (trace (cycle cfg w i s) ++ trace next ++ rest)%list.
Proof.
  intros _ Hin Hclock Hsleep Hnow Hlt. cbv zeta.
  assert (Hfirst :
    outcome (cycle cfg w i s) = Val tt /\
    last_trade_time (cycle cfg w i s) = Some t).
  { revert Hin. unfold cycle.
    walk w; settle; intros Hin; find_event Hin; split; reflexivity. }
  destruct Hfirst as [Hout Hstate].
  assert (Hthr : throttled (Some t) now (min_seconds_between_trades cfg) = true)
    by (apply Z.ltb_lt; exact Hlt).
  assert (Hnext :
    never is_count (trace (cycle cfg w (S i) (Some t))) /\
    never is_quote (trace (cycle cfg w (S i) (Some t))) /\
    never is_sizing (trace (cycle cfg w (S i) (Some t))) /\
    never is_submit (trace (cycle cfg w (S i) (Some t))) /\
    last_trade_time (cycle cfg w (S i) (Some t)) = Some t).
  { unfold cycle. walk w; settle; cbv [is_count]; auto 6. }
  destruct Hnext as (H1 & H2 & H3 & H4 & H5).
  repeat (split; [assumption|]).
  intros fuel.
  rewrite while_true_next by (right; exact Hout). rewrite Hstate.
  destruct (while_true_starts fuel (cycle cfg) w (S i) (Some t))
    as [rest Hrest].
  exists rest. cbn [after trace]. now rewrite Hrest.
Qed.

Lemma throttle_holds_after_submission_witness :
  let next := cycle eurusd (scripted buy_day) 1%nat (Some 79%Z) in
  never is_count (trace next) /\ never is_submit (trace next).
Proof.
  destruct
    (throttle_holds_after_submission eurusd (scripted buy_day) 0%nat None
       (Sent {| retcode := 10009; comment := "reply"; order := 7 |})
       79%Z 15000032%Z)
    as (Hcount & _ & _ & Hsubmit & _).
  - vm_compute. discriminate.
  - vm_compute. auto 20.
  - reflexivity.
  - reflexivity.
  - reflexivity.
  - reflexivity.
  - split; assumption.
Defined.

(** ** Where the timestamp comes from *)

(** An iteration leaves [last_trade_time] alone or sets it to the clock read
    on its line 79. *)
Lemma cycle_timestamp (cfg : Config) (w : World) (i : nat)
    (s : option datetime) :
  last_trade_time (cycle cfg w i s) = s \/
  exists t,
    w i 79%nat datetime_now = Ok t /\
    last_trade_time (cycle cfg w i s) = Some t.
Proof.
  unfold cycle. walk w; settle; eauto.
Qed.

(** X11.  At any point of a run [last_trade_time] is the value it had when
    the loop started or what the clock answered on line 79 in one of the
    iterations run so far; the calls around the loop do not touch it. *)
Theorem last_trade_time_is_a_clock_reading (cfg : Config) (fuel : nat)
    (w : World) (i : nat) (s : option datetime) :
  let r := main_loop cfg fuel w i s in
  last_trade_time r = s \/
  exists j t,
    (i <= j < i + fuel)%nat /\
    w j 79%nat datetime_now = Ok t /\
    last_trade_time r = Some t.
Proof.
  cbv zeta.
  assert (Hloop : forall fuel i s,
    last_trade_time (while_true fuel (cycle cfg) w i s) = s \/
    exists j t,
      (i <= j < i + fuel)%nat /\
      w j 79%nat datetime_now = Ok t /\
      last_trade_time (while_true fuel (cycle cfg) w i s) = Some t).
  { clear. intros fuel. induction fuel as [|fuel IH]; intros i s.
    - left. reflexivity.
    - cbn [while_true]. pose proof (cycle_timestamp cfg w i s) as Hc.
      destruct (cycle cfg w i s) as [tr s' [[]|e| |]];
        cbn [last_trade_time] in *.
      1,3: specialize (IH (S i) s');
        destruct (while_true fuel (cycle cfg) w (S i) s') as [tr' s'' o];
        cbn [last_trade_time] in *;
        destruct IH as [-> | (j & t & Hj & Hw & ->)];
        [ destruct Hc as [-> | (t0 & Hw0 & ->)];
          [ left; reflexivity
          | right; exists i, t0; repeat split; auto; lia ]
        | right; exists j, t; repeat split; auto; lia ].
      all: destruct Hc as [-> | (t0 & Hw0 & ->)];
        [ left; reflexivity
        | right; exists i, t0; repeat split; auto; lia ]. }
  specialize (Hloop fuel i s).
  unfold main_loop, bind, call, try_finally, try_except_KeyboardInterrupt.
  destruct (w i 17%nat connect_mt5); [|now left].
  destruct (w i 18%nat (print MsgConnected)); [|now left].
  destruct (while_true fuel (cycle cfg) w i s) as [tr s' [[]|e| |]];
    cbn [last_trade_time] in Hloop.
  all: try destruct e.
  all: repeat
    match goal with
    | |- context [match ?reply with Ok _ => _ | Raise _ => _ end] =>
        destruct reply
    end; cbn [last_trade_time]; exact Hloop.
Qed.

(** ** Replies the loop does not expect *)

(** X12.  An empty indicator frame: nothing is priced, sized or submitted and
    [last_trade_time] is left alone; with a signal and both gates passed,
    [df.iloc[-1]] raises [IndexError] and the iteration ends there. *)
Theorem empty_frame_raises_index_error (cfg : Config) (w : World) (i : nat)
    (s : option datetime) (raw : OhlcFrame) (df : IndFrame) :
  w i 23%nat (fetch_ohlc (symbol cfg) (timeframe cfg) (history_bars cfg))
    = Ok raw ->
  w i 24%nat (calc_indicators raw) = Ok df ->
  latest df = None ->
  let r := cycle cfg w i s in
  never is_quote (trace r) /\ never is_sizing (trace r) /\
  never is_submit (trace r) /\ last_trade_time r = s /\
  (forall signal open_pos,
      w i 27%nat (generate_signal df) = Ok (Some signal) ->
      In (EvCall 40 (count_open_positions (symbol cfg))) (trace r) ->
      w i 40%nat (count_open_positions (symbol cfg)) = Ok open_pos ->
      (open_pos < max_positions cfg)%Z ->
      outcome r = Exc IndexError /\
      last (trace r) (EvCall 0 connect_mt5) =
        EvCall 40 (count_open_positions (symbol cfg))).
Proof.
  intros Hfetch Hcalc Hlast. cbv zeta.
  split; [|split; [|split; [|split]]].
  1-4: unfold cycle; walk w; settle; reflexivity.
  intros signal open_pos Hsignal Hin Hcount Hfree.
  assert (Hgate : (open_pos >=? max_positions cfg)%Z = false)
    by (rewrite Z.geb_leb; apply Z.leb_gt; exact Hfree).
  revert Hin. unfold cycle.
  walk w; settle; intros Hin; find_event Hin; split; reflexivity.
Qed.

Lemma empty_frame_raises_index_error_witness :
  outcome (cycle eurusd bare_feed 0%nat None) = Exc IndexError.
Proof.
  destruct
    (empty_frame_raises_index_error eurusd bare_feed 0%nat None _ []
       eq_refl eq_refl eq_refl)
    as (_ & _ & _ & _ & Hraise).
  apply (Hraise "buy" 0%Z); try reflexivity.
  vm_compute. auto 12.
Defined.

(** X13.  No quote: when [mt5.symbol_info_tick] returns [None], reading
    [.ask] or [.bid] raises [AttributeError]; the position is not sized,
    nothing is submitted and [last_trade_time] is left alone. *)
Theorem missing_quote_raises (cfg : Config) (w : World) (i : nat)
    (s : option datetime) :
  (forall line, w i line (symbol_info_tick (symbol cfg)) = Ok None) ->
  let r := cycle cfg w i s in
  never is_sizing (trace r) /\ never is_submit (trace r) /\
  last_trade_time r = s /\
  (existsb is_quote (trace r) = true -> outcome r = Exc AttributeError).
Proof.
  intros Hquote. cbv zeta. unfold cycle.
  walk w; settle; repeat split; try reflexivity; discriminate.
Qed.

Lemma missing_quote_raises_witness :
  outcome (cycle eurusd (scripted quoteless_day) 0%nat None) =
  Exc AttributeError.
Proof.
  apply (missing_quote_raises eurusd (scripted quoteless_day) 0%nat None).
  - reflexivity.
  - reflexivity.
Defined.

(** X14.  A request the terminal does not take: when [mt5.order_send] returns
    [None], reading [result.retcode] raises [AttributeError] inside
    [place_order]; neither order message is printed, [place_order] does not
    return and [last_trade_time] is not set. *)
Theorem unanswered_order_raises (cfg : Config) (w : World) (i : nat)
    (s : option datetime) :
  dry_run cfg = false ->
  (forall request, w i 2%nat (order_send request) = Ok None) ->
  let r := cycle cfg w i s in
  last_trade_time r = s /\
  (forall res, ~ In (EvPlaceOrderReturn res) (trace r)) /\
  (forall m, ~ In (EvCall 4 (print m)) (trace r)) /\
  (forall m, ~ In (EvCall 6 (print m)) (trace r)) /\
  (existsb is_order_send (trace r) = true -> outcome r = Exc AttributeError).
Proof.
  intros Hlive Hnone. cbv zeta. unfold cycle.
  walk w; settle; repeat split; try reflexivity; try discriminate.
  all: intros x Hin; find_event Hin.
Qed.

Lemma unanswered_order_raises_witness :
  outcome (cycle eurusd deaf_terminal 0%nat None) = Exc AttributeError /\
  last_trade_time (cycle eurusd deaf_terminal 0%nat None) = None.
Proof.
  destruct (unanswered_order_raises eurusd deaf_terminal 0%nat None)
    as (Hstate & _ & _ & _ & Hraise); try reflexivity.
  split; [apply Hraise; reflexivity | exact Hstate].
Defined.

(** ** Opening and closing the session *)

(** X15.  [disconnect_mt5] is called only once the [try] block has been
    entered.  When [connect_mt5] raises, and also when the session is open
    but the message of line 18 raises, [main_loop] ends with that exception
    without running an iteration and without closing the session. *)
Theorem failed_start_skips_disconnect (cfg : Config) (fuel : nat) (w : World)
    (i : nat) (s : option datetime) (e : Exn) :
  w i 17%nat connect_mt5 = Raise e \/
  (w i 17%nat connect_mt5 = Ok tt /\
   w i 18%nat (print MsgConnected) = Raise e) ->
  let r := main_loop cfg fuel w i s in
  outcome r = Exc e /\ never is_disconnect (trace r) /\
  (forall c, ~ In (EvCall 23 c) (trace r)) /\ last_trade_time r = s.
Proof.
  intros [Hconnect | [Hconnect Hlog]]; cbv zeta; unfold main_loop;
    walk w; settle; cbv [is_disconnect]; repeat split; try reflexivity.
  all: intros c Hin; find_event Hin.
Qed.

Lemma failed_start_skips_disconnect_witness :
  outcome (main_loop eurusd 5 no_terminal 0%nat None) =
  Exc (OtherError "initialize failed") /\
  never is_disconnect (trace (main_loop eurusd 5 no_terminal 0%nat None)).
Proof.
  destruct
    (failed_start_skips_disconnect eurusd 5 no_terminal 0%nat None
       (OtherError "initialize failed") (or_introl eq_refl))
    as (Hout & Hopen & _).
  split; assumption.
Defined.

(** X16.  When [disconnect_mt5] itself raises, that exception is what leaves
    [main_loop], whatever ended the loop (a keyboard interrupt that had been
    handled included), and the closing message is not printed. *)
Theorem failed_disconnect_leaves_main_loop (cfg : Config) (fuel : nat)
    (w : World) (i : nat) (s : option datetime) (e : Exn) :
  w i 17%nat connect_mt5 = Ok tt ->
  w i 18%nat (print MsgConnected) = Ok tt ->
  w i 87%nat disconnect_mt5 = Raise e ->
  let r := main_loop cfg fuel w i s in
  let loop :=
    try_except_KeyboardInterrupt
      (while_true fuel (cycle cfg)) (call 85 (print MsgInterrupted)) w i s in
  outcome r <> OutOfFuel ->
  outcome r = Exc e /\
  trace r =
    ([EvCall 17 connect_mt5; EvCall 18 (print MsgConnected)] ++
     trace loop ++ [EvCall 87 disconnect_mt5])%list.
Proof.
  intros Hconnect Hlog Hclose. cbv zeta. unfold main_loop. walk w.
  unfold try_finally.
  destruct (try_except_KeyboardInterrupt _ _ w i s) as [tr s' [[]|e'| |]];
    cbn [after outcome trace last_trade_time];
    try congruence; intros _.
  all: rewrite run_call, Hclose; split; reflexivity.
Qed.

Lemma failed_disconnect_leaves_main_loop_witness :
  outcome (main_loop eurusd 5 stuck_session 0%nat None) =
  Exc (OtherError "shutdown failed").
Proof.
  apply (failed_disconnect_leaves_main_loop eurusd 5 stuck_session 0%nat None);
    try reflexivity.
  vm_compute. discriminate.
Defined.

(** X1.  [main_loop] returns normally only after a keyboard interrupt: the
    loop was left by [KeyboardInterrupt], its message was printed and the
    session was closed.  Every other run is still going or ends with an
    exception. *)
Theorem main_loop_returns_only_on_interrupt (cfg : Config) (fuel : nat)
    (w : World) (i : nat) (s : option datetime) :
  outcome (main_loop cfg fuel w i s) = Val tt ->
  outcome (while_true fuel (cycle cfg) w i s) = Exc KeyboardInterrupt /\
  In (EvCall 85 (print MsgInterrupted)) (trace (main_loop cfg fuel w i s)) /\
  In (EvCall 87 disconnect_mt5) (trace (main_loop cfg fuel w i s)).
Proof.
  unfold main_loop, bind, call, try_finally, try_except_KeyboardInterrupt.
  destruct (w i 17%nat connect_mt5); [|discriminate].
  destruct (w i 18%nat (print MsgConnected)); [|discriminate].
  pose proof (while_true_leaves_by_exception (cycle cfg) fuel w i s) as Hloop.
  destruct (while_true fuel (cycle cfg) w i s) as [tr s' o].
  cbn [outcome] in Hloop. destruct Hloop as [-> | [e ->]]; [discriminate|].
  destruct e;
    repeat
      match goal with
      | |- context [match ?reply with Ok _ => _ | Raise _ => _ end] =>
          destruct reply
      end;
    cbn [outcome trace]; intros Hout; try discriminate Hout.
  split; [reflexivity|].
  split; repeat (rewrite in_app_iff || cbn [In]); auto 10.
Qed.

Lemma main_loop_returns_only_on_interrupt_witness :
  In (EvCall 85 (print MsgInterrupted))
     (trace (main_loop eurusd 5 (scripted buy_day) 0%nat None)).
Proof.
  apply (main_loop_returns_only_on_interrupt eurusd 5 (scripted buy_day)
           0%nat None).
  reflexivity.
Defined.
